(** * SubSolarPoint: the subsolar point of the Earth from the UTC clock

    A shallow embedding of [SubSolarPoint.py] and the properties its
    specification states about it.

    Arithmetic.  Python's [float] values are modelled by the real numbers
    of the Standard Library and the decimal literals of the source by the
    rationals they denote: the transcendental functions of [math] have no
    executable counterpart, and the specification speaks of real [t].
    Rounding of binary64 arithmetic is therefore outside this model.
    Python's [int] values are [Z]; [//] and [%] on them are [Z.div] and
    [Z.modulo], which floor like Python's.

    Exceptions.  The operations of the source that can raise
    ([/] and [%] by zero, [math.asin] outside its domain) return in an
    error monad.

    Clock.  [datetime.utcnow()] reads the host's clock; the functions that
    call it run in a state monad over the stream of readings still to
    come. *)

From Stdlib Require Import Reals Lra Lia ZArith String Ascii DecimalString.

Open Scope R_scope.

(** ** Exceptions *)

Inductive exn : Type :=
| ZeroDivisionError
| ValueError.

Inductive result (A : Type) : Type :=
| Ok (a : A)
| Raise (e : exn).

Arguments Ok {A} a.
Arguments Raise {A} e.

Definition bind {A B : Type} (m : result A) (k : A -> result B) : result B :=
  match m with
  | Ok a => k a
  | Raise e => Raise e
  end.

Declare Scope result_scope.
Delimit Scope result_scope with result.
Notation "x <- m ;; k" := (bind m (fun x => k))
  (at level 61, m at next level, right associativity) : result_scope.
Open Scope result_scope.

(** ** Python's arithmetic on floats, in exact arithmetic *)

(** [x / y]: true division. *)
Definition truediv (x y : R) : result R :=
  if Req_dec_T y 0 then Raise ZeroDivisionError else Ok (x / y).

(** [x % y] on floats: the remainder takes the sign of the divisor, that is
    [x - y * floor (x / y)]. *)
Definition float_mod (x y : R) : result R :=
  if Req_dec_T y 0 then Raise ZeroDivisionError
  else Ok (x - y * IZR (Zfloor (x / y))).

(** [int(x)]: truncation toward zero. *)
Definition int_of_float (x : R) : Z :=
  if Rle_dec 0 x then Zfloor x else Zceil x.

(** [math.asin(x)]: a math domain error outside [-1, 1]. *)
Definition math_asin (x : R) : result R :=
  if Rle_dec (-1) x then
    if Rle_dec x 1 then Ok (asin x) else Raise ValueError
  else Raise ValueError.

(** ** class Constants *)

Module Constants.
Definition degrees_longitude_per_hour : Z := 15.
Definition degrees_to_radians : R := 0.01745329252.
Definition earth_tilt_in_degrees : R := 23.43715.
Definition earth_tilt_in_radians : R := 0.40905543478.
Definition julian_date_for_jan_01_1970_at_0000_gmt : R := 2440587.5.
Definition noon_time : Z := 12.
Definition number_of_days_in_a_century : Z := 36525.
Definition number_of_days_in_a_year : Z := 365.
Definition number_of_hours_in_a_day : Z := 24.
Definition number_of_minutes_in_a_day : Z := 1440.
Definition number_of_minutes_in_a_year : Z :=
  number_of_days_in_a_year * number_of_minutes_in_a_day.
Definition number_of_minutes_in_an_hour : Z := 60.
Definition number_of_seconds_in_a_day : Z := 86400.
Definition number_of_seconds_in_a_minute : Z := 60.
Definition number_of_seconds_in_a_year : Z :=
  number_of_seconds_in_a_day * number_of_days_in_a_year.
Definition number_of_seconds_in_an_hour : Z := 3600.
Definition one_eighty_degrees : Z := 180.
Definition radians_to_degrees : R := 57.2957795131.
Definition three_sixty_degrees : Z := 360.
End Constants.

(** ** class CoordinateConversions *)

Module CoordinateConversions.

(** One half of the decomposition: degrees, minutes and the seconds left
    over, from a decimal coordinate. *)
Record deg_min_sec : Type := mkDMS {
  degrees : Z;
  minutes : Z;
  seconds : Z
}.

(** Lines 30-33 (and 36-39) of the source, statement by statement, on the
    integer number of seconds of arc that line 29 (35) has produced. *)
Definition deg_min_sec_of_seconds (seconds0 : Z) : deg_min_sec :=
  let degrees := (seconds0 / Constants.number_of_seconds_in_an_hour)%Z in
  let seconds1 :=
    Z.abs (seconds0 mod Constants.number_of_seconds_in_an_hour)%Z in
  let minutes := (seconds1 / Constants.number_of_seconds_in_a_minute)%Z in
  let seconds2 := (seconds1 mod Constants.number_of_seconds_in_a_minute)%Z in
  mkDMS degrees minutes seconds2.

(** Line 29 (35), [int(coordinate * 3600)], and then the lines above. *)
Definition to_deg_min_sec (coordinate : R) : deg_min_sec :=
  deg_min_sec_of_seconds
    (int_of_float (coordinate * IZR Constants.number_of_seconds_in_an_hour)).

(** The six values handed to [format_string.format]. *)
Record format_args : Type := mkArgs {
  lat_deg_arg : Z;
  lat_min_arg : Z;
  lat_hemisphere : string;
  lon_deg_arg : Z;
  lon_min_arg : Z;
  lon_hemisphere : string
}.

Definition coordinate_args (latitude longitude : R) : format_args :=
  let lat := to_deg_min_sec latitude in
  let lon := to_deg_min_sec longitude in
  mkArgs
    (Z.abs (degrees lat)) (minutes lat)
    (if (degrees lat >=? 0)%Z then "North" else "South")
    (Z.abs (degrees lon)) (minutes lon)
    (if (degrees lon >=? 0)%Z then "East" else "West").

(** A format string is modelled by what its [format] method does to the
    six arguments. *)
Definition decimal_coordinates_to_deg_min_sec
    (latitude longitude : R) (format_string : format_args -> string)
    : string :=
  format_string (coordinate_args latitude longitude).

(** *** The default format string,
    [Constants.coordinates_string_format] *)

Definition decimal_digits (z : Z) : string :=
  NilZero.string_of_int (Z.to_int z).

Fixpoint repeat_char (c : ascii) (n : nat) : string :=
  match n with
  | O => EmptyString
  | S n' => String c (repeat_char c n')
  end.

(** [{:3d}]: right-aligned in three columns, padded with spaces. *)
Definition format_3d (z : Z) : string :=
  let s := decimal_digits z in
  (repeat_char " " (3 - String.length s) ++ s)%string.

(** [{:02d}]: two columns, zeros between the sign and the digits. *)
Definition format_02d (z : Z) : string :=
  if (z <? 0)%Z then
    let s := decimal_digits (Z.abs z) in
    ("-" ++ repeat_char "0" (1 - String.length s) ++ s)%string
  else
    let s := decimal_digits z in
    (repeat_char "0" (2 - String.length s) ++ s)%string.

Definition degree_sign : string :=
  String (ascii_of_nat 194) (String (ascii_of_nat 176) EmptyString).

Definition coordinates_string_format (a : format_args) : string :=
  (format_3d (lat_deg_arg a) ++ degree_sign ++ " "
   ++ format_02d (lat_min_arg a) ++ "' " ++ lat_hemisphere a ++ "  "
   ++ format_3d (lon_deg_arg a) ++ degree_sign ++ " "
   ++ format_02d (lon_min_arg a) ++ "' " ++ lon_hemisphere a)%string.

End CoordinateConversions.

(** ** datetime and the clock *)

(** What the program observes of a [datetime]: [timestamp()], [hour] and
    [minute].  [timestamp()] of the naive value that [utcnow()] returns is
    computed through the host's local time zone, so it is kept as an
    observation of its own rather than derived from the calendar fields. *)
Record datetime : Type := mkDatetime {
  timestamp : R;
  hour : Z;
  minute : Z
}.

(** The readings the clock will give, in order. *)
Definition clock : Type := nat -> datetime.

(** Computations that may read the clock and may raise. *)
Definition clocked (A : Type) : Type := clock -> result (A * clock).

Definition cret {A : Type} (a : A) : clocked A := fun c => Ok (a, c).

Definition cbind {A B : Type} (m : clocked A) (k : A -> clocked B)
  : clocked B :=
  fun c =>
    match m c with
    | Ok (a, c') => k a c'
    | Raise e => Raise e
    end.

Definition lift {A : Type} (m : result A) : clocked A :=
  fun c =>
    match m with
    | Ok a => Ok (a, c)
    | Raise e => Raise e
    end.

(** [datetime.utcnow()]: the next reading; the clock moves on. *)
Definition utcnow : clocked datetime :=
  fun c => Ok (c O, fun n => c (S n)).

Notation "x <~ m ;; k" := (cbind m (fun x => k))
  (at level 61, m at next level, right associativity) : result_scope.

(** ** class Astrocalculations *)

Module Astrocalculations.
Import Constants.

Definition jd_from_date (date : datetime) : result R :=
  q <- truediv (timestamp date) (IZR number_of_seconds_in_a_day) ;;
  Ok (julian_date_for_jan_01_1970_at_0000_gmt + q).

Definition julian_century_since_jan_2000 (date : datetime) : result R :=
  jd <- jd_from_date date ;;
  truediv (jd - 2451545) (IZR number_of_days_in_a_century).

Definition orbit_eccentricity_of_earth (t : R) : R :=
  0.016708634 - t * (0.000042037 + 0.0000001267 * t).

Definition mean_anomaly (t : R) : R :=
  357.52911 + t * 35999.05029 - t * 0.0001537.

Definition geometric_mean_longitude_of_sun_at_current_time (t : R)
  : result R :=
  float_mod (280.46646 + t * 36000.76983 + t * t * 0.0003032)
            (IZR three_sixty_degrees).

Definition sun_equation_of_center (t : R) : R :=
  let m := mean_anomaly t in
  sin (m * degrees_to_radians) * (1.914602 - t * (0.004817 + 0.000014 * t))
  + sin (2 * m * degrees_to_radians) * (0.019993 - 0.000101 * t)
  + sin (3 * m * degrees_to_radians) * 0.000289.

Definition latitude_of_sun (date : datetime) : result R :=
  jC <- julian_century_since_jan_2000 date ;;
  geom_mean_longitude <- geometric_mean_longitude_of_sun_at_current_time jC ;;
  let sun_true_longitude := geom_mean_longitude + sun_equation_of_center jC in
  latitude_of_sun <-
    math_asin (sin (sun_true_longitude * degrees_to_radians)
               * sin earth_tilt_in_radians) ;;
  Ok (latitude_of_sun * radians_to_degrees).

(** The five terms of [equation_of_time], from the two angles in radians
    and the eccentricity. *)
Definition equation_of_time_terms
    (mean_longitude_sun_radians mean_anomaly_sun_radians eccentricity : R)
    : R :=
  let obliquity := 0.0430264916545165 in
  let term1 := obliquity * sin (2 * mean_longitude_sun_radians) in
  let term2 := 2 * eccentricity * sin mean_anomaly_sun_radians in
  let term3 := 4 * eccentricity * obliquity * sin mean_anomaly_sun_radians
               * cos (2 * mean_longitude_sun_radians) in
  let term4 := 0.5 * obliquity * obliquity
               * sin (4 * mean_longitude_sun_radians) in
  let term5 := 1.25 * eccentricity * eccentricity
               * sin (2 * mean_anomaly_sun_radians) in
  4 * (term1 - term2 + term3 - term4 - term5) * radians_to_degrees.

Definition equation_of_time (date : datetime) : result R :=
  t <- julian_century_since_jan_2000 date ;;
  gml <- geometric_mean_longitude_of_sun_at_current_time t ;;
  let mean_longitude_sun_radians := gml * degrees_to_radians in
  let mean_anomaly_sun_radians := mean_anomaly t * degrees_to_radians in
  let eccentricity := orbit_eccentricity_of_earth t in
  Ok (equation_of_time_terms
        mean_longitude_sun_radians mean_anomaly_sun_radians eccentricity).

Definition sub_solar_longitude_of_sun_at_current_time (date : datetime)
  : clocked R :=
  eOT <~ lift (equation_of_time date) ;;
  first_reading <~ utcnow ;;
  second_reading <~ utcnow ;;
  minutes_as_hours <~
    lift (truediv (IZR (minute second_reading)) 60) ;;
  let local_time := IZR (hour first_reading) + minutes_as_hours in
  correction <~ lift (truediv eOT (IZR number_of_minutes_in_an_hour)) ;;
  gmt <~ lift (float_mod (local_time - correction)
                         (IZR number_of_hours_in_a_day)) ;;
  noon_hour_delta <~ lift (float_mod (IZR noon_time - gmt)
                                     (IZR number_of_hours_in_a_day)) ;;
  let sub_solar_lon := noon_hour_delta * IZR degrees_longitude_per_hour in
  cret sub_solar_lon.

Definition get_sub_solar_coordinates : clocked (R * R) :=
  now <~ utcnow ;;
  lat <~ lift (latitude_of_sun now) ;;
  lon <~ sub_solar_longitude_of_sun_at_current_time now ;;
  cret (lat, lon).

End Astrocalculations.

(** ** Values the chain is compared with *)

(** The specification's formula for the mean anomaly, with the last term in
    [t²]; to be compared with [Astrocalculations.mean_anomaly]. *)
Definition mean_anomaly_spec (t : R) : R :=
  357.52911 + 35999.05029 * t - 0.0001537 * (t * t).

(** [x] reduced modulo a positive [y]. *)
Definition reduced_modulo (x y : R) : R := x - y * IZR (Zfloor (x / y)).

(** The Julian century of a timestamp, as the specification writes it. *)
Definition julian_century_of (seconds_since_epoch : R) : R :=
  (2440587.5 + seconds_since_epoch / 86400 - 2451545) / 36525.

(** ** Instants and clocks of concrete runs *)

(** 1970-01-01 at 10:59:59, half a second later, and at 11:00:00. *)
Definition before_the_hour : datetime := mkDatetime 39599 10 59.
Definition still_before_the_hour : datetime := mkDatetime 39599.5 10 59.
Definition on_the_hour : datetime := mkDatetime 39600 11 0.

(** Three clocks that give the same first reading: one stands still, one
    ticks on within the minute, one passes the hour. *)
Definition still_clock : clock := fun _ => before_the_hour.
Definition ticking_clock : clock :=
  fun n =>
    match n with O => before_the_hour | S _ => still_before_the_hour end.
Definition moving_clock : clock :=
  fun n => match n with O => before_the_hour | S _ => on_the_hour end.


(** * Properties *)

(** ** The primitives *)

Lemma truediv_ok (x y : R) : y <> 0 -> truediv x y = Ok (x / y).
Proof.
  intro Hy. unfold truediv.
  destruct (Req_dec_T y 0) as [E | _]; [contradiction | reflexivity].
Qed.

Lemma float_mod_ok (x y : R) :
  y <> 0 -> float_mod x y = Ok (reduced_modulo x y).
Proof.
  intro Hy. unfold float_mod.
  destruct (Req_dec_T y 0) as [E | _]; [contradiction | reflexivity].
Qed.

(** With a positive divisor the remainder is in [[0, y)]. *)
Lemma reduced_modulo_range (x y : R) :
  0 < y -> 0 <= reduced_modulo x y < y.
Proof.
  intro Hy. unfold reduced_modulo.
  destruct (Zfloor_bound (x / y)) as [Hlo Hhi].
  assert (Hx : x = y * (x / y)) by (field; lra).
  split.
  - apply (Rmult_le_compat_l y) in Hlo; lra.
  - apply (Rmult_lt_compat_l y) in Hhi; lra.
Qed.

(** Two reductions modulo [y] that agree come from arguments that differ
    by a multiple of [y]. *)
Lemma reduced_modulo_eq_inv (x x' y : R) :
  reduced_modulo x y = reduced_modulo x' y ->
  exists k : Z, x - x' = y * IZR k.
Proof.
  unfold reduced_modulo. intro H.
  exists (Zfloor (x / y) - Zfloor (x' / y))%Z.
  rewrite minus_IZR. lra.
Qed.

Lemma int_of_float_IZR (z : Z) : int_of_float (IZR z) = z.
Proof.
  unfold int_of_float.
  destruct (Rle_dec 0 (IZR z)).
  - apply ZfloorZ.
  - unfold Zceil. rewrite ZfloorNZ. lia.
Qed.

Lemma math_asin_ok (x : R) : -1 <= x <= 1 -> math_asin x = Ok (asin x).
Proof.
  intros [Hlo Hhi]. unfold math_asin.
  destruct (Rle_dec (-1) x); [| contradiction].
  destruct (Rle_dec x 1); [reflexivity | contradiction].
Qed.

Lemma Rabs_le_between (a b : R) : Rabs a <= b -> - b <= a <= b.
Proof. unfold Rabs. destruct (Rcase_abs a); lra. Qed.


(** ** Trigonometry *)

(** From seven terms of the series of [2 atan (1/3) + atan (1/7)]. *)
Lemma PI_bounds : 3.14159265 < PI < 3.14159269.
Proof.
  pose proof (PI_2_3_7_ineq 3) as H.
  unfold sum_f_R0, tg_alt, PI_2_3_7_tg, Ratan_seq in H.
  simpl in H. lra.
Qed.





(** [asin] stays within the angle whose sine bounds its argument. *)
Lemma asin_within (a tau : R) :
  0 <= tau <= PI / 2 -> Rabs a <= sin tau -> - tau <= asin a <= tau.
Proof.
  intros Htau Ha.
  pose proof (asin_bound a) as Hb.
  pose proof (SIN_bound tau) as Hs.
  apply Rabs_le_between in Ha.
  assert (Hrange : -1 <= a <= 1) by lra.
  split.
  - apply sin_incr_0; try lra.
    rewrite sin_neg, sin_asin by exact Hrange. lra.
  - apply sin_incr_0; try lra.
    rewrite sin_asin by exact Hrange. lra.
Qed.

(** ** CoordinateConversions *)

Section Formatter.
Import CoordinateConversions.

Lemma minutes_range (coordinate : R) :
  (0 <= minutes (to_deg_min_sec coordinate) <= 59)%Z.
Proof.
  unfold to_deg_min_sec, deg_min_sec_of_seconds; cbn [minutes].
  set (s := int_of_float _).
  unfold Constants.number_of_seconds_in_an_hour,
    Constants.number_of_seconds_in_a_minute.
  pose proof (Z.mod_pos_bound s 3600 ltac:(lia)) as Hm.
  rewrite Z.abs_eq by lia.
  split.
  - apply Z.div_pos; lia.
  - apply Z.lt_succ_r. apply Z.div_lt_upper_bound; lia.
Qed.

(** The decomposition of a coordinate that is a whole number of seconds of
    arc is computed by integer arithmetic alone. *)
Lemma to_deg_min_sec_IZR (c : R) (s : Z) :
  c * 3600 = IZR s -> to_deg_min_sec c = deg_min_sec_of_seconds s.
Proof.
  intro H. unfold to_deg_min_sec, Constants.number_of_seconds_in_an_hour.
  rewrite H, int_of_float_IZR. reflexivity.
Qed.


(** C7.  Latitude 40.5 and longitude -74.0 decompose into (40, 30) and
    (-74, 0); the values substituted are 40, 30, "North" and 74, 0,
    "West", the sign of the longitude being carried by the label; the
    default format string renders them accordingly. *)
Theorem decomposition_of_40_5_and_minus_74 :
  to_deg_min_sec 40.5 = mkDMS 40 30 0 /\
  to_deg_min_sec (-74.0) = mkDMS (-74) 0 0 /\
  coordinate_args 40.5 (-74.0) = mkArgs 40 30 "North" 74 0 "West" /\
  decimal_coordinates_to_deg_min_sec 40.5 (-74.0) coordinates_string_format
  = (" 40" ++ degree_sign ++ " 30' North   74" ++ degree_sign
     ++ " 00' West")%string.
Proof.
  assert (Hlat : to_deg_min_sec 40.5 = mkDMS 40 30 0).
  { rewrite (to_deg_min_sec_IZR 40.5 145800) by lra. reflexivity. }
  assert (Hlon : to_deg_min_sec (-74.0) = mkDMS (-74) 0 0).
  { rewrite (to_deg_min_sec_IZR (-74.0) (-266400)) by lra. reflexivity. }
  assert (Hargs :
    coordinate_args 40.5 (-74.0) = mkArgs 40 30 "North" 74 0 "West").
  { unfold coordinate_args. rewrite Hlat, Hlon. reflexivity. }
  repeat split; try assumption.
  unfold decimal_coordinates_to_deg_min_sec. rewrite Hargs.
  vm_compute. reflexivity.
Qed.

(** C10.  Whatever the latitude and the longitude, the minutes
    substituted into the format string are integers from 0 to 59, the
    degrees substituted are absolute values, and the label alone tells
    the sign of the degrees computed. *)
Theorem substituted_values_in_range (latitude longitude : R) :
  let a := coordinate_args latitude longitude in
  (0 <= lat_min_arg a <= 59)%Z /\ (0 <= lon_min_arg a <= 59)%Z /\
  lat_deg_arg a = Z.abs (degrees (to_deg_min_sec latitude)) /\
  lon_deg_arg a = Z.abs (degrees (to_deg_min_sec longitude)) /\
  (0 <= lat_deg_arg a)%Z /\ (0 <= lon_deg_arg a)%Z /\
  (lat_hemisphere a = "South"%string
   <-> (degrees (to_deg_min_sec latitude) < 0)%Z) /\
  (lon_hemisphere a = "West"%string
   <-> (degrees (to_deg_min_sec longitude) < 0)%Z).
Proof.
  cbn zeta. unfold coordinate_args; cbn [lat_min_arg lon_min_arg
    lat_deg_arg lon_deg_arg lat_hemisphere lon_hemisphere].
  repeat split; try apply minutes_range; try apply Z.abs_nonneg.
  - destruct (Z.geb_spec (degrees (to_deg_min_sec latitude)) 0);
      [discriminate | lia].
  - intro H. destruct (Z.geb_spec (degrees (to_deg_min_sec latitude)) 0);
      [lia | reflexivity].
  - destruct (Z.geb_spec (degrees (to_deg_min_sec longitude)) 0);
      [discriminate | lia].
  - intro H. destruct (Z.geb_spec (degrees (to_deg_min_sec longitude)) 0);
      [lia | reflexivity].
Qed.

(** C3.  At -74.5 the source computes -75 degrees and 30 minutes, where
    truncation toward zero gives -74, and prints 75 degrees 30 minutes
    South (West); at -1/7200, half a second of arc below zero, the degrees
    computed are 0 and the label is "North". *)
Theorem degrees_floor_below_zero :
  int_of_float (-74.5) = (-74)%Z /\
  to_deg_min_sec (-74.5) = mkDMS (-75) 30 0 /\
  coordinate_args (-74.5) (-74.5) = mkArgs 75 30 "South" 75 30 "West" /\
  decimal_coordinates_to_deg_min_sec (-74.5) (-74.5) coordinates_string_format
  = (" 75" ++ degree_sign ++ " 30' South   75" ++ degree_sign
     ++ " 30' West")%string /\
  -1 / 7200 < 0 /\
  lat_hemisphere (coordinate_args (-1 / 7200) 0) = "North"%string.
Proof.
  assert (H : to_deg_min_sec (-74.5) = mkDMS (-75) 30 0).
  { rewrite (to_deg_min_sec_IZR (-74.5) (-268200)) by lra. reflexivity. }
  assert (Hargs :
    coordinate_args (-74.5) (-74.5) = mkArgs 75 30 "South" 75 30 "West").
  { unfold coordinate_args. rewrite H. reflexivity. }
  split.
  { unfold int_of_float.
    destruct (Rle_dec 0 (-74.5)) as [Hle | _]; [lra |].
    apply Zceil_eq. lra. }
  split; [exact H |]. split; [exact Hargs |]. split.
  { unfold decimal_coordinates_to_deg_min_sec. rewrite Hargs.
    vm_compute. reflexivity. }
  split; [lra |].
  unfold coordinate_args, to_deg_min_sec, deg_min_sec_of_seconds;
    cbn [lat_hemisphere degrees].
  replace (int_of_float
             (-1 / 7200 * IZR Constants.number_of_seconds_in_an_hour))
    with 0%Z; [reflexivity |].
  unfold int_of_float, Constants.number_of_seconds_in_an_hour.
  destruct (Rle_dec 0 (-1 / 7200 * 3600)) as [Hle | _]; [lra |].
  symmetry. apply Zceil_eq. lra.
Qed.

End Formatter.

(** ** Astrocalculations: the polynomial terms *)

Section MeanAnomaly.
Import Astrocalculations.

(** C1.  [mean_anomaly] multiplies its last coefficient by [t], not by
    [t²]: at [t = 2] it differs from the specification's formula, and the
    two agree at [t = 0] and [t = 1] only. *)
Theorem mean_anomaly_last_term_linear :
  mean_anomaly 2 = 357.52911 + 35999.05029 * 2 - 0.0001537 * 2 /\
  mean_anomaly 2 <> mean_anomaly_spec 2 /\
  (forall t : R, mean_anomaly t = mean_anomaly_spec t <-> t = 0 \/ t = 1).
Proof.
  unfold mean_anomaly, mean_anomaly_spec.
  split; [lra |]. split; [lra |].
  intro t. split.
  - intro H.
    assert (E : t * (t - 1) = 0) by lra.
    apply Rmult_integral in E. destruct E; [left | right]; lra.
  - intros [-> | ->]; lra.
Qed.

End MeanAnomaly.

(** ** Astrocalculations: the chain returns *)

Section Chain.
Import Constants Astrocalculations.

Lemma jd_from_date_ok (date : datetime) :
  jd_from_date date = Ok (2440587.5 + timestamp date / 86400).
Proof.
  unfold jd_from_date, number_of_seconds_in_a_day,
    julian_date_for_jan_01_1970_at_0000_gmt.
  rewrite truediv_ok by lra. reflexivity.
Qed.

Lemma julian_century_ok (date : datetime) :
  julian_century_since_jan_2000 date
  = Ok (julian_century_of (timestamp date)).
Proof.
  unfold julian_century_since_jan_2000, number_of_days_in_a_century.
  rewrite jd_from_date_ok. cbn [bind].
  rewrite truediv_ok by lra. reflexivity.
Qed.

Lemma geometric_mean_longitude_ok (t : R) :
  geometric_mean_longitude_of_sun_at_current_time t
  = Ok (reduced_modulo
          (280.46646 + t * 36000.76983 + t * t * 0.0003032) 360).
Proof.
  unfold geometric_mean_longitude_of_sun_at_current_time,
    three_sixty_degrees.
  rewrite float_mod_ok by lra. reflexivity.
Qed.

(** The argument of [math.asin] never leaves the sine of the tilt. *)
Lemma asin_argument_bound (x : R) :
  Rabs (sin x * sin earth_tilt_in_radians) <= sin earth_tilt_in_radians
  /\ 0 < sin earth_tilt_in_radians < 1.
Proof.
  pose proof PI_bounds as Hpi.
  assert (Htilt : 0 < sin earth_tilt_in_radians < 1).
  { unfold earth_tilt_in_radians. split.
    - apply sin_gt_0; lra.
    - rewrite <- sin_PI2. apply sin_increasing_1; lra. }
  split; [| exact Htilt].
  rewrite Rabs_mult, (Rabs_pos_eq (sin earth_tilt_in_radians)) by lra.
  pose proof (SIN_bound x) as Hs.
  assert (Rabs (sin x) <= 1) by (apply Rabs_le; lra).
  nra.
Qed.

Lemma latitude_of_sun_ok (date : datetime) :
  let jC := julian_century_of (timestamp date) in
  let sun_true_longitude :=
    reduced_modulo (280.46646 + jC * 36000.76983 + jC * jC * 0.0003032) 360
    + sun_equation_of_center jC in
  latitude_of_sun date
  = Ok (asin (sin (sun_true_longitude * degrees_to_radians)
              * sin earth_tilt_in_radians) * radians_to_degrees).
Proof.
  cbn zeta. unfold latitude_of_sun.
  rewrite julian_century_ok; cbn [bind].
  rewrite geometric_mean_longitude_ok; cbn [bind].
  rewrite math_asin_ok; [reflexivity |].
  match goal with |- _ <= sin ?x * _ <= _ =>
    destruct (asin_argument_bound x) as [Ha Ht] end.
  apply Rabs_le_between in Ha. lra.
Qed.

Lemma equation_of_time_ok (date : datetime) :
  let t := julian_century_of (timestamp date) in
  equation_of_time date
  = Ok (equation_of_time_terms
          (reduced_modulo
             (280.46646 + t * 36000.76983 + t * t * 0.0003032) 360
           * degrees_to_radians)
          (mean_anomaly t * degrees_to_radians)
          (orbit_eccentricity_of_earth t)).
Proof.
  cbn zeta. unfold equation_of_time.
  rewrite julian_century_ok; cbn [bind].
  rewrite geometric_mean_longitude_ok; cbn [bind].
  reflexivity.
Qed.

(** The longitude step, from the equation of time of [date] and the two
    readings it takes. *)
Lemma sub_solar_longitude_ok (date : datetime) (eOT : R) (c : clock) :
  equation_of_time date = Ok eOT ->
  sub_solar_longitude_of_sun_at_current_time date c
  = Ok (reduced_modulo
          (12 - reduced_modulo
                  (IZR (hour (c 0%nat)) + IZR (minute (c 1%nat)) / 60
                   - eOT / 60) 24) 24 * 15,
        fun n => c (S (S n))).
Proof.
  intro HeOT.
  unfold sub_solar_longitude_of_sun_at_current_time, cbind, lift, utcnow,
    cret, number_of_minutes_in_an_hour, number_of_hours_in_a_day, noon_time,
    degrees_longitude_per_hour.
  rewrite HeOT.
  rewrite !truediv_ok by lra.
  rewrite !float_mod_ok by lra.
  reflexivity.
Qed.

(** The whole computation: three readings, the first being the instant. *)
Lemma get_sub_solar_coordinates_ok (c : clock) (lat eOT : R) :
  latitude_of_sun (c 0%nat) = Ok lat ->
  equation_of_time (c 0%nat) = Ok eOT ->
  get_sub_solar_coordinates c
  = Ok (lat,
        reduced_modulo
          (12 - reduced_modulo
                  (IZR (hour (c 1%nat)) + IZR (minute (c 2%nat)) / 60
                   - eOT / 60) 24) 24 * 15,
        fun n => c (S (S (S n)))).
Proof.
  intros Hlat HeOT.
  unfold get_sub_solar_coordinates, cbind, utcnow, lift, cret.
  rewrite Hlat.
  rewrite (sub_solar_longitude_ok (c 0%nat) eOT (fun n => c (S n)) HeOT).
  reflexivity.
Qed.

(** C5.  For every real [t] the geometric mean longitude is returned, is
    the polynomial [280.46646 + 36000.76983 t + 0.0003032 t²] reduced
    modulo 360, and lies in [[0, 360)]. *)
Theorem geometric_mean_longitude_in_range (t : R) :
  exists l : R,
    geometric_mean_longitude_of_sun_at_current_time t = Ok l /\
    l = reduced_modulo
          (280.46646 + 36000.76983 * t + 0.0003032 * (t * t)) 360 /\
    (exists k : Z,
       280.46646 + 36000.76983 * t + 0.0003032 * (t * t)
       = l + 360 * IZR k) /\
    0 <= l < 360.
Proof.
  eexists. split; [apply geometric_mean_longitude_ok |].
  replace (280.46646 + t * 36000.76983 + t * t * 0.0003032)
    with (280.46646 + 36000.76983 * t + 0.0003032 * (t * t)) by ring.
  split; [reflexivity |]. split.
  - exists (Zfloor
              ((280.46646 + 36000.76983 * t + 0.0003032 * (t * t)) / 360)).
    unfold reduced_modulo. ring.
  - apply reduced_modulo_range. lra.
Qed.

(** C4.  For every instant the latitude of the sun is returned; it is the
    arcsine of [sin (true longitude) * sin (tilt)] turned into degrees, and
    its absolute value is at most 23.43715 degrees. *)
Theorem latitude_bounded_by_tilt (date : datetime) :
  exists sun_true_longitude latitude : R,
    latitude_of_sun date = Ok latitude /\
    latitude
    = asin (sin (sun_true_longitude * degrees_to_radians)
            * sin earth_tilt_in_radians) * radians_to_degrees /\
    Rabs latitude <= 23.43715.
Proof.
  do 2 eexists. split; [apply latitude_of_sun_ok |].
  cbn zeta. split; [reflexivity |].
  match goal with |- Rabs (asin (sin ?x * _) * _) <= _ =>
    destruct (asin_argument_bound x) as [Ha Ht];
    set (a := sin x * sin earth_tilt_in_radians) in * end.
  pose proof PI_bounds as Hpi.
  assert (Hasin : - earth_tilt_in_radians <= asin a <= earth_tilt_in_radians).
  { apply asin_within; [unfold earth_tilt_in_radians; lra | exact Ha]. }
  unfold earth_tilt_in_radians, radians_to_degrees in *.
  apply Rabs_le. lra.
Qed.



End Chain.

(** ** The clock inside the longitude step *)

Section Clock.
Import Constants Astrocalculations.

(** Runs the whole computation on a clock, from the latitude and the
    equation of time of its first reading. *)
Ltac run_coordinates Hlat HeOT :=
  apply get_sub_solar_coordinates_ok; [exact Hlat | exact HeOT].

(** The longitudes of two runs differ as soon as the local times read do
    not differ by whole days. *)
Lemma longitude_separates (a b e : R) :
  (forall k : Z, a - b <> 24 * IZR k) ->
  reduced_modulo (12 - reduced_modulo (a - e) 24) 24 * 15
  <> reduced_modulo (12 - reduced_modulo (b - e) 24) 24 * 15.
Proof.
  intros Hab H.
  assert (H' : reduced_modulo (12 - reduced_modulo (a - e) 24) 24
               = reduced_modulo (12 - reduced_modulo (b - e) 24) 24) by lra.
  apply reduced_modulo_eq_inv in H'. destruct H' as [k Hk].
  unfold reduced_modulo in Hk.
  apply (Hab (Zfloor ((a - e) / 24) - Zfloor ((b - e) / 24) - k)%Z).
  rewrite !minus_IZR. lra.
Qed.

(** C2, as it stands, fails: the still clock and the moving clock give the
    same instant to the computation, which returns the same latitude and
    two different longitudes. *)
Lemma same_instant_different_longitude :
  still_clock 0%nat = moving_clock 0%nat /\
  exists lat lon1 lon2 c1 c2,
    get_sub_solar_coordinates still_clock = Ok (lat, lon1, c1) /\
    get_sub_solar_coordinates moving_clock = Ok (lat, lon2, c2) /\
    lon1 <> lon2.
Proof.
  split; [reflexivity |].
  pose proof (latitude_of_sun_ok before_the_hour) as Hlat.
  pose proof (equation_of_time_ok before_the_hour) as HeOT.
  cbn zeta in Hlat, HeOT.
  do 5 eexists.
  split; [run_coordinates Hlat HeOT |].
  split; [run_coordinates Hlat HeOT |].
  cbn [still_clock moving_clock before_the_hour on_the_hour hour minute].
  apply longitude_separates.
  intros k Hk.
  assert (E : IZR (1440 * k + 1) = IZR 0).
  { rewrite plus_IZR, mult_IZR. lra. }
  apply eq_IZR in E. lia.
Qed.

(** C2, amended.  Two computations given the same instant return the same
    latitude; they return the same longitude when, besides, the hour of the
    reading that follows and the minute of the one after are the same. *)
Theorem coordinates_from_instant_and_readings (c1 c2 : clock) :
  c1 0%nat = c2 0%nat ->
  exists lat lon1 lon2 s1 s2,
    get_sub_solar_coordinates c1 = Ok (lat, lon1, s1) /\
    get_sub_solar_coordinates c2 = Ok (lat, lon2, s2) /\
    (hour (c1 1%nat) = hour (c2 1%nat) ->
     minute (c1 2%nat) = minute (c2 2%nat) -> lon1 = lon2).
Proof.
  intro Hnow.
  pose proof (latitude_of_sun_ok (c1 0%nat)) as Hlat.
  pose proof (equation_of_time_ok (c1 0%nat)) as HeOT.
  cbn zeta in Hlat, HeOT.
  do 5 eexists.
  split; [run_coordinates Hlat HeOT |].
  split.
  { apply get_sub_solar_coordinates_ok; rewrite <- Hnow;
      [exact Hlat | exact HeOT]. }
  intros Hh Hm. rewrite Hh, Hm. reflexivity.
Qed.

(** The still clock and the ticking clock: same instant, same hour and
    minute read afterwards, same coordinates. *)
Lemma coordinates_from_instant_and_readings_witness :
  still_clock 0%nat = ticking_clock 0%nat /\
  exists lat lon s1 s2,
    get_sub_solar_coordinates still_clock = Ok (lat, lon, s1) /\
    get_sub_solar_coordinates ticking_clock = Ok (lat, lon, s2).
Proof.
  split; [reflexivity |].
  destruct (coordinates_from_instant_and_readings
              still_clock ticking_clock eq_refl)
    as (lat & lon1 & lon2 & s1 & s2 & H1 & H2 & Hlon).
  exists lat, lon1, s1, s2.
  split; [exact H1 |].
  rewrite (Hlon eq_refl eq_refl). exact H2.
Defined.

End Clock.

(** ** The equation of time *)

Section EquationOfTime.
Import Constants Astrocalculations.




End EquationOfTime.


(** * Further properties of the code *)

(** ** More on the primitives *)

(** A value in [[0, y)] that differs from [x] by a multiple of [y] is the
    reduction of [x]. *)
Lemma reduced_modulo_unique (x y v : R) (k : Z) :
  0 < y -> 0 <= v < y -> x = v + y * IZR k -> reduced_modulo x y = v.
Proof.
  intros Hy Hv Hx. unfold reduced_modulo.
  rewrite (Zfloor_eq k); [lra |].
  assert (E : x / y = IZR k + v / y) by (rewrite Hx; field; lra).
  rewrite E.
  assert (0 <= v / y < 1).
  { split.
    - apply Rmult_le_pos; [lra | apply Rlt_le, Rinv_0_lt_compat; lra].
    - apply (Rmult_lt_reg_r y); [lra |]. unfold Rdiv.
      rewrite Rmult_assoc, Rinv_l by lra. lra. }
  lra.
Qed.

Lemma reduced_modulo_add_multiple (x y : R) (k : Z) :
  0 < y -> reduced_modulo (x + y * IZR k) y = reduced_modulo x y.
Proof.
  intro Hy.
  apply (reduced_modulo_unique _ _ _ (Zfloor (x / y) + k)%Z Hy).
  - apply reduced_modulo_range, Hy.
  - unfold reduced_modulo. rewrite plus_IZR. ring.
Qed.

(** A reduction under a subtraction that is reduced again is absorbed. *)
Lemma reduced_modulo_minus_inner (a x y : R) :
  0 < y ->
  reduced_modulo (a - reduced_modulo x y) y = reduced_modulo (a - x) y.
Proof.
  intro Hy.
  replace (a - reduced_modulo x y) with (a - x + y * IZR (Zfloor (x / y)))
    by (unfold reduced_modulo; ring).
  apply reduced_modulo_add_multiple, Hy.
Qed.

Lemma reduced_modulo_scale (x y c : R) :
  0 < y -> 0 < c -> reduced_modulo x y * c = reduced_modulo (c * x) (c * y).
Proof.
  intros Hy Hc. unfold reduced_modulo.
  replace (c * x / (c * y)) with (x / y) by (field; lra).
  ring.
Qed.



Lemma asin_nonneg_iff (x : R) : -1 <= x <= 1 -> (0 <= asin x <-> 0 <= x).
Proof.
  intro Hx.
  pose proof (asin_bound x) as Hb.
  pose proof PI_bounds as Hpi.
  pose proof (sin_asin x Hx) as Hs.
  split; intro H.
  - rewrite <- Hs. apply sin_ge_0; lra.
  - destruct (Rle_lt_dec 0 (asin x)) as [Hp | Hn]; [exact Hp |].
    pose proof (sin_lt_0_var (asin x) ltac:(lra) Hn). lra.
Qed.

(** ** The decomposition into degrees, minutes and seconds *)

Section Decomposition.
Import CoordinateConversions.

(** The three components, the degrees with their sign, add up to the
    seconds of arc they come from. *)
Lemma seconds_recomposed (s0 : Z) :
  let r := deg_min_sec_of_seconds s0 in
  (3600 * degrees r + 60 * minutes r + seconds r = s0)%Z /\
  (0 <= minutes r <= 59)%Z /\ (0 <= seconds r <= 59)%Z.
Proof.
  cbn zeta. unfold deg_min_sec_of_seconds; cbn [degrees minutes seconds].
  unfold Constants.number_of_seconds_in_an_hour,
    Constants.number_of_seconds_in_a_minute.
  pose proof (Z.mod_pos_bound s0 3600 ltac:(lia)) as Hm.
  rewrite Z.abs_eq by lia.
  pose proof (Z.div_mod s0 3600 ltac:(lia)) as Hs.
  pose proof (Z.div_mod (s0 mod 3600) 60 ltac:(lia)) as Hr.
  pose proof (Z.mod_pos_bound (s0 mod 3600) 60 ltac:(lia)) as Hsec.
  split; [lia |]. split; [| lia].
  split; [apply Z.div_pos; lia |].
  apply Z.lt_succ_r, Z.div_lt_upper_bound; lia.
Qed.

(** X1.  For every coordinate, 3600 times the degrees computed (with their
    sign) plus 60 times the minutes plus the seconds is [int(coordinate *
    3600)], with minutes and seconds from 0 to 59: nothing of the whole
    seconds of arc is lost by the decomposition. *)
Theorem deg_min_sec_recompose (coordinate : R) :
  let r := to_deg_min_sec coordinate in
  (3600 * degrees r + 60 * minutes r + seconds r
   = int_of_float (coordinate * 3600))%Z /\
  (0 <= minutes r <= 59)%Z /\ (0 <= seconds r <= 59)%Z.
Proof.
  cbn zeta. unfold to_deg_min_sec.
  apply (seconds_recomposed
           (int_of_float
              (coordinate * IZR Constants.number_of_seconds_in_an_hour))).
Qed.



(** X3.  For a coordinate below zero, the reading substituted into the
    format string (absolute degrees, minutes, with the seconds left over)
    counts the seconds of arc of the coordinate, in absolute value, plus
    twice their remainder modulo 3600: it is exact on whole degrees only. *)
Theorem printed_seconds_of_negative (coordinate : R) :
  coordinate < 0 ->
  let r := to_deg_min_sec coordinate in
  let s0 := int_of_float (coordinate * 3600) in
  (3600 * Z.abs (degrees r) + 60 * minutes r + seconds r
   = Z.abs s0 + 2 * (s0 mod 3600))%Z.
Proof.
  intro Hc. cbn zeta.
  pose proof (seconds_recomposed (int_of_float (coordinate * 3600)))
    as [Hsum [Hmin Hsec]].
  cbn zeta in Hsum, Hmin, Hsec.
  assert (Hs0 : (int_of_float (coordinate * 3600) <= 0)%Z).
  { unfold int_of_float.
    destruct (Rle_dec 0 (coordinate * 3600)) as [H | _]; [lra |].
    destruct (Zceil_bound (coordinate * 3600)) as [Clo Chi].
    apply Z.lt_succ_r, lt_IZR. rewrite succ_IZR. lra. }
  change (to_deg_min_sec coordinate)
    with (deg_min_sec_of_seconds (int_of_float (coordinate * 3600))).
  set (s0 := int_of_float (coordinate * 3600)) in *.
  set (r := deg_min_sec_of_seconds s0) in *.
  assert (Hdeg : degrees r = (s0 / 3600)%Z) by reflexivity.
  pose proof (Z.div_mod s0 3600 ltac:(lia)) as Hdm.
  pose proof (Z.mod_pos_bound s0 3600 ltac:(lia)) as Hmod.
  assert (Hd : (degrees r <= 0)%Z).
  { rewrite Hdeg. apply Z.div_le_upper_bound; lia. }
  lia.
Qed.

Lemma printed_seconds_of_negative_witness :
  -74.5 < 0 /\
  let r := to_deg_min_sec (-74.5) in
  let s0 := int_of_float (-74.5 * 3600) in
  (3600 * Z.abs (degrees r) + 60 * minutes r + seconds r
   = Z.abs s0 + 2 * (s0 mod 3600))%Z.
Proof.
  assert (H : -74.5 < 0) by lra.
  split; [exact H |].
  exact (printed_seconds_of_negative (-74.5) H).
Defined.


End Decomposition.

(** ** Julian date, eccentricity and equation of center *)

Section Ephemeris.
Import Constants Astrocalculations.






(** X8.  Between the Julian centuries -20 and 80 the equation of center
    stays within 2.03 degrees of zero. *)
Theorem equation_of_center_bounded (t : R) :
  -20 <= t <= 80 -> Rabs (sun_equation_of_center t) < 2.03.
Proof.
  intro Ht. unfold sun_equation_of_center. cbn zeta.
  set (m := mean_anomaly t).
  pose proof (SIN_bound (m * degrees_to_radians)) as B1.
  pose proof (SIN_bound (2 * m * degrees_to_radians)) as B2.
  pose proof (SIN_bound (3 * m * degrees_to_radians)) as B3.
  set (s1 := sin (m * degrees_to_radians)) in *.
  set (s2 := sin (2 * m * degrees_to_radians)) in *.
  set (s3 := sin (3 * m * degrees_to_radians)) in *.
  set (c1 := 1.914602 - t * (0.004817 + 0.000014 * t)).
  set (c2 := 0.019993 - 0.000101 * t).
  assert (Hc1 : 0 <= c1 <= 2.0054) by (unfold c1; nra).
  assert (Hc2 : 0 <= c2 <= 0.0221) by (unfold c2; nra).
  assert (H1 : -2.0054 <= s1 * c1 <= 2.0054) by nra.
  assert (H2 : -0.0221 <= s2 * c2 <= 0.0221) by nra.
  apply Rabs_def1; lra.
Qed.

Lemma equation_of_center_bounded_witness :
  -20 <= 0 <= 80 /\ Rabs (sun_equation_of_center 0) < 2.03.
Proof.
  assert (H : -20 <= 0 <= 80) by lra.
  split; [exact H |].
  exact (equation_of_center_bounded 0 H).
Defined.

(** X9.  The sine of the latitude returned, taken back to radians, is the
    sine of the true longitude times the sine of the tilt; the latitude is
    north of the equator exactly when the sine of the true longitude is not
    negative, and on the equator exactly when it is zero. *)
Theorem latitude_follows_true_longitude (date : datetime) :
  let jC := julian_century_of (timestamp date) in
  let sun_true_longitude :=
    reduced_modulo (280.46646 + jC * 36000.76983 + jC * jC * 0.0003032) 360
    + sun_equation_of_center jC in
  exists latitude : R,
    latitude_of_sun date = Ok latitude /\
    sin (latitude / radians_to_degrees)
    = sin (sun_true_longitude * degrees_to_radians)
      * sin earth_tilt_in_radians /\
    (0 <= latitude <-> 0 <= sin (sun_true_longitude * degrees_to_radians)) /\
    (latitude = 0 <-> sin (sun_true_longitude * degrees_to_radians) = 0).
Proof.
  cbn zeta. eexists. split; [apply latitude_of_sun_ok |]. cbn zeta.
  match goal with |- context [asin (sin ?x * _)] =>
    destruct (asin_argument_bound x) as [Ha Ht];
    set (s := sin x) in * end.
  apply Rabs_le_between in Ha.
  set (a := s * sin earth_tilt_in_radians) in *.
  assert (Hrange : -1 <= a <= 1) by lra.
  assert (Hr2d : radians_to_degrees <> 0) by (unfold radians_to_degrees; lra).
  assert (Hpos : 0 <= asin a <-> 0 <= s).
  { rewrite (asin_nonneg_iff a Hrange). unfold a. split; intro; nra. }
  assert (Hneg : asin a <= 0 <-> s <= 0).
  { pose proof (asin_nonneg_iff (- a) ltac:(lra)) as H'.
    rewrite asin_opp in H'.
    split; intro H.
    - assert (0 <= - a) by (apply H'; lra). unfold a in *. nra.
    - assert (0 <= - asin a) by (apply H'; unfold a; nra). lra. }
  split; [| split].
  - replace (asin a * radians_to_degrees / radians_to_degrees)
      with (asin a) by (field; exact Hr2d).
    apply sin_asin, Hrange.
  - unfold radians_to_degrees in *. rewrite <- Hpos. split; intro; nra.
  - unfold radians_to_degrees in *. split; intro H.
    + assert (asin a = 0) by nra. lra.
    + assert (asin a = 0) by lra. nra.
Qed.

End Ephemeris.

(** ** The longitude step and the printed point *)

Section Longitude.
Import Constants Astrocalculations CoordinateConversions.


(** X10.  The two reductions modulo 24 collapse: the longitude returned
    is 180 degrees, less 15 degrees per hour of the clock time read, plus
    a quarter of a degree per minute of the equation of time, reduced
    modulo 360. *)
Theorem sub_solar_longitude_closed_form (date : datetime) (c : clock) :
  exists eOT lon c',
    equation_of_time date = Ok eOT /\
    sub_solar_longitude_of_sun_at_current_time date c = Ok (lon, c') /\
    lon = reduced_modulo
            (180 - 15 * (IZR (hour (c 0%nat)) + IZR (minute (c 1%nat)) / 60)
             + eOT / 4) 360.
Proof.
  eexists. do 2 eexists.
  split; [apply equation_of_time_ok |].
  split; [apply sub_solar_longitude_ok, equation_of_time_ok |].
  cbn zeta.
  rewrite reduced_modulo_minus_inner by lra.
  rewrite (reduced_modulo_scale _ 24 15) by lra.
  f_equal; lra.
Qed.




(** X13.  The whole computation returns after exactly three readings of
    the clock, two of them inside the longitude step: the readings that
    follow are left for the caller. *)
Theorem three_clock_readings (c : clock) :
  exists (lat lon : R) (c' : clock),
    get_sub_solar_coordinates c = Ok (lat, lon, c') /\
    (forall n : nat, c' n = c (3 + n)%nat) /\
    (exists lon2 c2,
       sub_solar_longitude_of_sun_at_current_time (c 0%nat) c = Ok (lon2, c2)
       /\ forall n : nat, c2 n = c (2 + n)%nat).
Proof.
  do 3 eexists.
  split.
  { apply get_sub_solar_coordinates_ok;
      [apply latitude_of_sun_ok | apply equation_of_time_ok]. }
  split; [intro n; reflexivity |].
  do 2 eexists. split.
  { apply sub_solar_longitude_ok, equation_of_time_ok. }
  intro n; reflexivity.
Qed.


(** A reduction under an addition that is reduced again is absorbed. *)
Lemma reduced_modulo_plus_inner (x z y : R) :
  0 < y ->
  reduced_modulo (reduced_modulo x y + z) y = reduced_modulo (x + z) y.
Proof.
  intro Hy.
  replace (reduced_modulo x y + z)
    with (x + z + y * IZR (- Zfloor (x / y)))
    by (unfold reduced_modulo; rewrite opp_IZR; ring).
  apply reduced_modulo_add_multiple, Hy.
Qed.

(** X15.  The hour and the minute come from two readings.  When the first
    is taken at minute 59 and the second at minute 0, the hour having
    turned in between, the longitude returned is the one for the first
    reading alone moved by 14.75 degrees, that is by 59 minutes of time. *)
Theorem longitude_across_the_hour (date : datetime) (c : clock) :
  minute (c 0%nat) = 59%Z -> minute (c 1%nat) = 0%Z ->
  exists lon lon0 c' c0',
    sub_solar_longitude_of_sun_at_current_time date c = Ok (lon, c') /\
    sub_solar_longitude_of_sun_at_current_time date (fun _ => c 0%nat)
    = Ok (lon0, c0') /\
    lon = reduced_modulo (lon0 + 14.75) 360.
Proof.
  intros H59 H0.
  pose proof (equation_of_time_ok date) as HeOT. cbn zeta in HeOT.
  match type of HeOT with _ = Ok ?v => set (eOT := v) in * end.
  do 4 eexists.
  split; [apply (sub_solar_longitude_ok date eOT c HeOT) |].
  split; [apply (sub_solar_longitude_ok date eOT (fun _ => c 0%nat) HeOT) |].
  cbn beta. rewrite H59, H0.
  rewrite !reduced_modulo_minus_inner by lra.
  rewrite !(reduced_modulo_scale _ 24 15) by lra.
  replace (15 * 24) with 360 by lra.
  rewrite reduced_modulo_plus_inner by lra.
  f_equal. lra.
Qed.

Lemma longitude_across_the_hour_witness :
  minute (moving_clock 0%nat) = 59%Z /\ minute (moving_clock 1%nat) = 0%Z /\
  exists lon lon0 c' c0',
    sub_solar_longitude_of_sun_at_current_time before_the_hour moving_clock
    = Ok (lon, c') /\
    sub_solar_longitude_of_sun_at_current_time before_the_hour
      (fun _ => moving_clock 0%nat)
    = Ok (lon0, c0') /\
    lon = reduced_modulo (lon0 + 14.75) 360.
Proof.
  split; [reflexivity |]. split; [reflexivity |].
  exact (longitude_across_the_hour before_the_hour moving_clock
           eq_refl eq_refl).
Defined.

End Longitude.
